(** * buzzex.js: a shallow embedding of the Buzzex REST client

    The development follows [src/buzzex.js] top to bottom: the method
    tables and defaults, [getMessageSignature], [rawRequest], [getToken]
    and the three methods of [BuzzexClient].

    Modelling decisions.
    - A JavaScript string is the list of its UTF-16 code units.
    - A JavaScript value is one of undefined, null, a boolean, an
      integer-valued number of magnitude below 10^21 (so that its string
      form is its decimal expansion) or a string.
    - A plain object is the list of its own properties in the order
      [Object.keys] enumerates them.  Every key the program itself writes
      is a non-index name, so a new key goes last and an existing one
      keeps its place.
    - The [got], [request], [crypto] and [qs] packages and [JSON.parse]
      are collaborators of the program.  What they compute is taken as a
      parameter; the replies of the network and the reading of the clock
      form the [world] a call runs in.
    - A promise is modelled by the state it eventually reaches in that
      world; the writes to the console are not modelled.
    - A callback is an opaque name whose invocations are recorded; it is
      taken not to throw, and a caller is taken to leave its [params]
      object alone between a private call and the arrival of the token. *)

From Stdlib Require Import List ZArith NArith Bool String Ascii Lia.
From Stdlib Require Import Init.Byte DecimalString.
Import ListNotations.

Local Open Scope Z_scope.

(** ** Strings *)

Definition jsstring := list N.

Definition js (s : string) : jsstring :=
  map N_of_ascii (list_ascii_of_string s).
Arguments js : simpl never.

(** Strict equality of two strings. *)
Fixpoint jsstring_eqb (a b : jsstring) : bool :=
  match a, b with
  | [], [] => true
  | x :: a', y :: b' => N.eqb x y && jsstring_eqb a' b'
  | _, _ => false
  end.

(** [Array.prototype.includes] on an array of strings. *)
Definition includes (l : list jsstring) (s : jsstring) : bool :=
  existsb (jsstring_eqb s) l.

(** [String.prototype.startsWith]. *)
Fixpoint startsWith (s prefix : jsstring) {struct prefix} : bool :=
  match prefix, s with
  | [], _ => true
  | c :: prefix', x :: s' => N.eqb x c && startsWith s' prefix'
  | _ :: _, [] => false
  end.

(** [String.prototype.substr] with the single argument 1. *)
Definition substr1 (s : jsstring) : jsstring := tl s.

(** ** Values and objects *)

Inductive value :=
| VUndef
| VNull
| VBool (b : bool)
| VNum (z : Z)
| VStr (s : jsstring).

(** ToString of a value, as [+] applies it next to a string. *)
Definition ToString (v : value) : jsstring :=
  match v with
  | VUndef => js "undefined"
  | VNull => js "null"
  | VBool true => js "true"
  | VBool false => js "false"
  | VNum z => js (NilZero.string_of_int (Z.to_int z))
  | VStr s => s
  end.

(** ToBoolean, as [!] and [if] apply it. *)
Definition truthy (v : value) : bool :=
  match v with
  | VUndef | VNull => false
  | VBool b => b
  | VNum z => negb (Z.eqb z 0)
  | VStr s => match s with [] => false | _ => true end
  end.

Definition object := list (jsstring * value).

Fixpoint get (o : object) (k : jsstring) : value :=
  match o with
  | [] => VUndef
  | (k', v) :: o' => if jsstring_eqb k' k then v else get o' k
  end.

Fixpoint set (o : object) (k : jsstring) (v : value) : object :=
  match o with
  | [] => [(k, v)]
  | (k', v') :: o' =>
      if jsstring_eqb k' k then (k', v) :: o' else (k', v') :: set o' k v
  end.

(** ** Buffers and the 'binary' encoding *)

Definition bytes := list byte.

(** [digest('binary')]: one code unit per byte. *)
Definition binary_decode (b : bytes) : jsstring := map Byte.to_N b.

Definition byte_of_code_unit (c : N) : byte :=
  match Byte.of_N (c mod 256) with
  | Some b => b
  | None => x00
  end.

(** [update(s, 'binary')]: the low eight bits of every code unit. *)
Definition binary_encode (s : jsstring) : bytes := map byte_of_code_unit s.

(** ** Collaborators *)

(** The [crypto] package and the buffer codecs it is used with. *)
Class Crypto := {
  sha256 : bytes -> bytes;
  hmac_sha512 : bytes -> bytes -> bytes;   (* key, then message *)
  base64_decode : jsstring -> bytes;
  base64_encode : bytes -> jsstring;
  utf8_encode : jsstring -> bytes
}.

(** ** The parsed response body *)

Record ApiResponse := {
  error : option (list jsstring);
  payload : object
}.

(** The [qs] package and [JSON.parse]; the latter is [None] where it
    throws. *)
Class Codec := {
  qs_stringify : object -> jsstring;
  JSON_parse : jsstring -> option ApiResponse
}.

(** ** Exceptions, promises, events *)

Inductive exn :=
| Error (message : jsstring)     (* new Error(message) *)
| SyntaxError                    (* thrown by JSON.parse *)
| RequestError (code : jsstring). (* raised by the HTTP packages *)

Inductive promise (A : Type) :=
| Pending
| Fulfilled (a : A)
| Rejected (e : exn).
Arguments Pending {A}.
Arguments Fulfilled {A} a.
Arguments Rejected {A} e.

Definition callback := nat.

Inductive event :=
| Request (url method : jsstring) (json : object)
| Got (url : jsstring) (headers : object) (timeout : Z)
      (method body : jsstring)
| Callback (f : callback) (err : option exn) (res : option ApiResponse).

Inductive request_reply :=
| RequestFailed (e : exn)
| RequestBody (body : object).

Inductive got_reply :=
| GotFailed (e : exn)
| GotBody (body : jsstring).

(** What a call meets: the clock in milliseconds as [new Date()] reads
    it, the reply to the token POST and the reply to the API request. *)
Record world := {
  now : Z;
  token_reply : request_reply;
  api_reply : got_reply
}.

(** ** Method names and defaults (lines 6-17) *)

Module methods.
Definition public : list jsstring :=
  [js "info"; js "ticker"; js "depth"; js "trades"].
Definition private : list jsstring :=
  [js "getinfo"; js "trade"; js "active-orders"; js "order-info";
   js "cancel-order"].
End methods.

Module defaults.
Definition url : jsstring := js "https://api.buzzex.io".
Definition version : Z := 0.
Definition timeout : Z := 5000.
End defaults.

Section Program.

Context {crypto : Crypto} {codec : Codec}.

(** ** getMessageSignature (lines 20-29) *)

Definition getMessageSignature
    (path : jsstring) (request : object) (secret : jsstring) (nonce : value)
    : jsstring :=
  let message := qs_stringify request in
  let secret_buffer := base64_decode secret in
  let hash_digest :=
    binary_decode (sha256 (utf8_encode (ToString nonce ++ message))) in
  let hmac_digest :=
    base64_encode
      (hmac_sha512 secret_buffer (binary_encode (path ++ hash_digest))) in
  hmac_digest.

(** The signature as the specification words it: the digest enters the
    HMAC message as raw bytes, after the bytes of the path. *)
Definition sign_spec
    (path : jsstring) (params : object) (secret : jsstring) (nonce : Z)
    : jsstring :=
  let messageDigest :=
    sha256 (utf8_encode (ToString (VNum nonce) ++ qs_stringify params)) in
  base64_encode
    (hmac_sha512 (base64_decode secret) (binary_encode path ++ messageDigest)).

(** ** rawRequest (lines 32-64) *)

(** The local [error] of lines 52-54. *)
Definition hard_errors (es : list jsstring) : list jsstring :=
  map substr1 (filter (fun e => startsWith e (js "E")) es).

(** Lines 51-63, run on the parsed body. *)
Definition check_response (response : ApiResponse) : promise ApiResponse :=
  match error response with
  | Some ((_ :: _) as es) =>
      match hard_errors es with
      | [] => Rejected (Error (js "Buzzex API returned an unknown error"))
      | _ :: _ => Fulfilled response
      end
  | _ => Fulfilled response
  end.

Definition rawRequest
    (url : jsstring) (headers data : object) (timeout : Z)
    (method : jsstring) (reply : got_reply)
    : promise ApiResponse * list event :=
  let headers :=
    set headers (js "User-Agent") (VStr (js "Buzzex Javascript API Client")) in
  let body := qs_stringify data in
  let url :=
    if jsstring_eqb method (js "POST")
    then url ++ js "?" ++ qs_stringify data
    else url in
  (match reply with
   | GotFailed e => Rejected e
   | GotBody b =>
       match JSON_parse b with
       | None => Rejected SyntaxError
       | Some response => check_response response
       end
   end,
   [Got url headers timeout method body]).

(** ** getToken (lines 66-90) *)

Definition getToken (key secret : jsstring) (reply : request_reply)
    : promise object * list event :=
  (match reply with
   | RequestBody body => Fulfilled body
   | RequestFailed _ => Pending
   end,
   [Request (js "https://api.buzzex.io/api/token") (js "POST")
      [(js "grant_type", VStr (js "client_credentials"));
       (js "client_id", VStr key);
       (js "client_secret", VStr secret)]]).

(** ** BuzzexClient (lines 100-239) *)

Record config := {
  key : jsstring;
  secret : jsstring;
  url : jsstring;
  version : Z;
  timeout : Z;
  otp : value
}.

(** The third argument of the constructor: nothing, a string, or an
    object some of whose fields are set. *)
Inductive options :=
| OptionsUndefined
| OptionsString (s : jsstring)
| OptionsObject (o_url : option jsstring) (o_version o_timeout : option Z)
                (o_otp : value).

Definition or_default {A} (o : option A) (d : A) : A :=
  match o with Some a => a | None => d end.

Definition BuzzexClient (key secret : jsstring) (opts : options) : config :=
  let opts :=
    match opts with
    | OptionsString s => OptionsObject None None None (VStr s)
    | _ => opts
    end in
  match opts with
  | OptionsObject u v t o =>
      {| key := key; secret := secret;
         url := or_default u defaults.url;
         version := or_default v defaults.version;
         timeout := or_default t defaults.timeout;
         otp := o |}
  | _ =>
      {| key := key; secret := secret;
         url := defaults.url; version := defaults.version;
         timeout := defaults.timeout; otp := VUndef |}
  end.

(** What stands in the [params] position of a call. *)
Inductive argument :=
| ArgUndefined
| ArgFunction (f : callback)
| ArgObject (o : object).

(** How a call ends for its caller. *)
Inductive completion :=
| Thrown (e : exn)
| ReturnedUndefined
| ReturnedPromise (p : promise ApiResponse).

(** A finished call: how it ended, the network traffic and callback
    invocations it caused, in order, and what [params] is bound to at
    the end (the caller's own object, when one was passed). *)
Record outcome := {
  result : completion;
  trace : list event;
  params_after : argument
}.

(** [params = params || {}] followed by the [typeof params === 'function']
    test: the object and the callback the body goes on with. *)
Definition shift_arguments (params : argument) (cb : option callback)
    : object * option callback :=
  let params :=
    match params with
    | ArgUndefined => ArgObject []
    | _ => params
    end in
  match params with
  | ArgFunction f => ([], Some f)
  | ArgObject o => (o, cb)
  | ArgUndefined => ([], cb)
  end.

(** The [then]/[catch] pair hung on [response] when a callback was given. *)
Definition notify (cb : option callback) (response : promise ApiResponse)
    : list event :=
  match cb, response with
  | Some f, Fulfilled r => [Callback f None (Some r)]
  | Some f, Rejected e => [Callback f (Some e) None]
  | _, _ => []
  end.

Definition publicMethod
    (this : config) (method : jsstring) (params : argument)
    (cb : option callback) (w : world) : outcome :=
  let '(params, cb) := shift_arguments params cb in
  let path := js "/api/v1/" ++ method in
  let url := url this ++ path ++ js "/" ++ ToString (get params (js "param")) in
  let '(response, sent) :=
    rawRequest url [] params (timeout this) (js "GET") (api_reply w) in
  {| result := ReturnedPromise response;
     trace := sent ++ notify cb response;
     params_after := ArgObject params |}.

(** Lines 185-193. *)
Definition normalize_param (method : jsstring) (params : object) : object :=
  match get params (js "param") with
  | VUndef => set params (js "param") (VStr [])
  | v =>
      if negb (jsstring_eqb method (js "trade"))
      then set params (js "param") (VStr (js "/" ++ ToString v))
      else params
  end.

(** Lines 201-203. *)
Definition inject_nonce (w : world) (params : object) : object :=
  if negb (truthy (get params (js "nonce")))
  then set params (js "nonce") (VNum (now w * 1000))
  else params.

(** Lines 205-207. *)
Definition inject_otp (this : config) (params : object) : object :=
  match otp this with
  | VUndef => params
  | v => set params (js "otp") v
  end.

(** The parameters as lines 185-207 leave them. *)
Definition prepared (this : config) (method : jsstring) (w : world)
    (params : object) : object :=
  inject_otp this (inject_nonce w (normalize_param method params)).

Definition privateMethod
    (this : config) (method : jsstring) (params : argument)
    (cb : option callback) (w : world) : outcome :=
  let '(params, cb) := shift_arguments params cb in
  let params := normalize_param method params in
  let path := js "/api/v1/trading/" ++ method in
  let url := url this ++ path ++ ToString (get params (js "param")) in
  let params := inject_nonce w params in
  let params := inject_otp this params in
  let signature :=
    getMessageSignature path params (secret this)
      (get params (js "nonce")) in
  let '(token, asked) := getToken (key this) (secret this) (token_reply w) in
  let after_token :=
    match token with
    | Fulfilled value =>
        let headers :=
          [(js "Authorization",
            VStr (js "Bearer " ++ ToString (get value (js "access_token"))))] in
        let header_method :=
          if jsstring_eqb method (js "trade") then js "POST" else js "GET" in
        let '(response, sent) :=
          rawRequest url headers params (timeout this) header_method
            (api_reply w) in
        sent ++ notify cb response
    | _ => []
    end in
  {| result := ReturnedUndefined;
     trace := asked ++ after_token;
     params_after := ArgObject params |}.

Definition api
    (this : config) (method : jsstring) (params : argument)
    (cb : option callback) (w : world) : outcome :=
  let '(params, cb) :=
    match params with
    | ArgFunction f => (ArgObject [], Some f)
    | _ => (params, cb)
    end in
  if includes methods.public method then
    publicMethod this method params cb w
  else if includes methods.private method then
    privateMethod this method params cb w
  else
    {| result := Thrown (Error (method ++ js " is not a valid API method."));
       trace := [];
       params_after := params |}.

End Program.

(** ** Stand-ins for the collaborators

    They serve to run the model on concrete inputs.  Every general
    theorem below is proved for arbitrary collaborators. *)

Module Toy.

(** key=value pairs joined by an ampersand, undefined values left out,
    nothing escaped. *)
Fixpoint pairs (o : object) : list jsstring :=
  match o with
  | [] => []
  | (_, VUndef) :: o' => pairs o'
  | (k, VNull) :: o' => (k ++ js "=") :: pairs o'
  | (k, v) :: o' => (k ++ js "=" ++ ToString v) :: pairs o'
  end.

Fixpoint join (l : list jsstring) : jsstring :=
  match l with
  | [] => []
  | [s] => s
  | s :: l' => s ++ js "&" ++ join l'
  end.

Definition body_ok : ApiResponse :=
  {| error := Some []; payload := [] |}.
Definition body_hard : ApiResponse :=
  {| error := Some [js "EGeneral:Invalid"]; payload := [] |}.
Definition body_soft : ApiResponse :=
  {| error := Some [js "Warning:Foo"]; payload := [] |}.

(** Three bodies are understood; anything else is a syntax error. *)
Definition parse (b : jsstring) : option ApiResponse :=
  if jsstring_eqb b (js "ok") then Some body_ok
  else if jsstring_eqb b (js "hard") then Some body_hard
  else if jsstring_eqb b (js "soft") then Some body_soft
  else None.

#[export] Instance codec : Codec :=
  {| qs_stringify := fun o => join (pairs o); JSON_parse := parse |}.

#[export] Instance crypto : Crypto :=
  {| sha256 := fun m => rev m;
     hmac_sha512 := fun k m => k ++ m;
     base64_decode := binary_encode;
     base64_encode := binary_decode;
     utf8_encode := binary_encode |}.

(** A second crypto package, which signs everything alike. *)
Definition other_crypto : Crypto :=
  {| sha256 := fun _ => [];
     hmac_sha512 := fun _ m => m;
     base64_decode := fun _ => [];
     base64_encode := fun _ => js "signature";
     utf8_encode := fun _ => [] |}.

Definition client : config :=
  BuzzexClient (js "key") (js "c2VjcmV0") OptionsUndefined.

Definition token : object := [(js "access_token", VStr (js "T0K3N"))].

(** The clock reads 1700000000000 ms, a token is granted, the exchange
    answers with an empty error array. *)
Definition fine : world :=
  {| now := 1700000000000;
     token_reply := RequestBody token;
     api_reply := GotBody (js "ok") |}.

End Toy.

(** ** Observations on a finished call *)

Definition is_token_fetch (e : event) : bool :=
  match e with
  | Request _ _ _ => true
  | _ => false
  end.

(** How many credential-grant POSTs a trace holds. *)
Definition token_fetches (t : list event) : nat :=
  List.length (filter is_token_fetch t).

(** The URLs handed to [got], in order. *)
Fixpoint sent_urls (t : list event) : list jsstring :=
  match t with
  | [] => []
  | Got u _ _ _ _ :: t' => u :: sent_urls t'
  | _ :: t' => sent_urls t'
  end.

(** The HTTP methods handed to [got], in order. *)
Fixpoint sent_methods (t : list event) : list jsstring :=
  match t with
  | [] => []
  | Got _ _ _ m _ :: t' => m :: sent_methods t'
  | _ :: t' => sent_methods t'
  end.

Definition is_callback (e : event) : bool :=
  match e with
  | Callback _ _ _ => true
  | _ => false
  end.

(** The invocations of callbacks a trace holds, in order. *)
Definition callback_calls (t : list event) : list event :=
  filter is_callback t.

(** The code unit [update(s, 'binary')] keeps of a code unit. *)
Definition low_byte (c : N) : N := (c mod 256)%N.

Definition object_of (a : argument) : object :=
  match a with
  | ArgObject o => o
  | _ => []
  end.

(** [a.k] for the thing bound to [params]. *)
Definition property (a : argument) (k : jsstring) : value :=
  get (object_of a) k.

(** * Properties *)

(** ** Strings and objects *)

Lemma jsstring_eqb_refl (a : jsstring) : jsstring_eqb a a = true.
Proof.
  induction a as [|x a IH]; simpl; [reflexivity|].
  now rewrite N.eqb_refl, IH.
Qed.

Lemma jsstring_eqb_eq (a b : jsstring) : jsstring_eqb a b = true <-> a = b.
Proof.
  split; [|intros ->; apply jsstring_eqb_refl].
  revert b; induction a as [|x a IH]; intros [|y b]; simpl;
    try reflexivity; try discriminate.
  intros H. apply andb_true_iff in H as [Hx Hr].
  apply N.eqb_eq in Hx. apply IH in Hr. now subst.
Qed.

Lemma jsstring_eqb_neq (a b : jsstring) : jsstring_eqb a b = false <-> a <> b.
Proof.
  rewrite <- jsstring_eqb_eq. destruct (jsstring_eqb a b); split;
    congruence.
Qed.

Lemma includes_In (l : list jsstring) (s : jsstring) :
  includes l s = true <-> In s l.
Proof.
  unfold includes. rewrite existsb_exists. split.
  - intros (x & Hin & Heq). apply jsstring_eqb_eq in Heq. now subst.
  - intros Hin. exists s. split; [assumption|apply jsstring_eqb_refl].
Qed.

Lemma get_set_same (o : object) (k : jsstring) (v : value) :
  get (set o k v) k = v.
Proof.
  induction o as [|[k' v'] o IH]; simpl.
  - now rewrite jsstring_eqb_refl.
  - destruct (jsstring_eqb k' k) eqn:E; simpl; rewrite E; auto.
Qed.

Lemma get_set_other (o : object) (k k' : jsstring) (v : value) :
  k <> k' -> get (set o k v) k' = get o k'.
Proof.
  intros Hne. induction o as [|[k0 v0] o IH]; simpl.
  - apply jsstring_eqb_neq in Hne. now rewrite Hne.
  - destruct (jsstring_eqb k0 k) eqn:E; simpl.
    + apply jsstring_eqb_eq in E. subst k0.
      apply jsstring_eqb_neq in Hne. now rewrite Hne.
    + destruct (jsstring_eqb k0 k'); auto.
Qed.

(** ** The 'binary' encoding *)

Lemma byte_of_code_unit_to_N (b : byte) : byte_of_code_unit (Byte.to_N b) = b.
Proof.
  unfold byte_of_code_unit.
  rewrite N.mod_small by (pose proof (Byte.to_N_bounded b); lia).
  now rewrite Byte.of_to_N.
Qed.

Lemma binary_encode_decode (b : bytes) : binary_encode (binary_decode b) = b.
Proof.
  unfold binary_encode, binary_decode. rewrite map_map.
  induction b as [|x b IH]; simpl; [reflexivity|].
  now rewrite byte_of_code_unit_to_N, IH.
Qed.

Lemma binary_encode_app (s t : jsstring) :
  binary_encode (s ++ t) = binary_encode s ++ binary_encode t.
Proof. apply map_app. Qed.

(** A digest read back as a 'binary' string has one code unit per byte,
    each below 256: nothing of it is lost on the way into the HMAC. *)
Lemma binary_decode_latin1 (b : bytes) :
  List.length (binary_decode b) = List.length b /\
  Forall (fun c => (c < 256)%N) (binary_decode b).
Proof.
  split; [apply length_map|].
  apply Forall_forall. intros c Hc. apply in_map_iff in Hc as (x & <- & _).
  pose proof (Byte.to_N_bounded x). lia.
Qed.

(** ** The method tables *)

Lemma private_not_public (m : jsstring) :
  includes methods.private m = true -> includes methods.public m = false.
Proof.
  rewrite includes_In. simpl.
  intros [<-|[<-|[<-|[<-|[<-|[]]]]]]; reflexivity.
Qed.

Lemma public_not_private (m : jsstring) :
  includes methods.public m = true -> includes methods.private m = false.
Proof.
  rewrite includes_In. simpl.
  intros [<-|[<-|[<-|[<-|[]]]]]; reflexivity.
Qed.

(** ** The signer *)

Section Signer.

Context {crypto : Crypto} {codec : Codec}.

(** C2.  For every path, parameter map, base64 secret and integer nonce,
    [getMessageSignature] is base64 of HMAC-SHA512, keyed with the decoded
    secret, of the bytes of the path followed by the raw SHA-256 digest of
    the nonce's decimal form followed by the query string of the
    parameters. *)
Theorem getMessageSignature_sign_spec
    (path : jsstring) (params : object) (secret : jsstring) (nonce : Z) :
  getMessageSignature path params secret (VNum nonce) =
  sign_spec path params secret nonce.
Proof.
  unfold getMessageSignature, sign_spec.
  now rewrite binary_encode_app, binary_encode_decode.
Qed.

(** The same for a nonce of any type, through its string form. *)
Lemma getMessageSignature_message
    (path : jsstring) (params : object) (secret : jsstring) (nonce : value) :
  getMessageSignature path params secret nonce =
  base64_encode
    (hmac_sha512 (base64_decode secret)
       (binary_encode path ++
        sha256 (utf8_encode (ToString nonce ++ qs_stringify params)))).
Proof.
  unfold getMessageSignature.
  now rewrite binary_encode_app, binary_encode_decode.
Qed.

End Signer.

(** ** The token provider *)

(** C3.  When the transport reports an error to the credential-grant POST,
    the promise [getToken] returned is neither fulfilled nor rejected: it
    stays pending, after the one POST was sent. *)
Theorem getToken_transport_error_pending (key secret : jsstring) (e : exn) :
  getToken key secret (RequestFailed e) =
  (Pending,
   [Request (js "https://api.buzzex.io/api/token") (js "POST")
      [(js "grant_type", VStr (js "client_credentials"));
       (js "client_id", VStr key);
       (js "client_secret", VStr secret)]]).
Proof. reflexivity. Qed.

Lemma getToken_granted (key secret : jsstring) (body : object) :
  fst (getToken key secret (RequestBody body)) = Fulfilled body.
Proof. reflexivity. Qed.

(** ** The transport *)

Lemma startsWith_app (s prefix : jsstring) :
  startsWith s prefix = true <-> exists rest, s = prefix ++ rest.
Proof.
  revert s. induction prefix as [|c prefix IH]; intros s; simpl.
  - split; [now exists s|reflexivity].
  - destruct s as [|x s].
    + split; [discriminate|intros (rest & H); discriminate].
    + rewrite andb_true_iff, N.eqb_eq, IH. split.
      * intros (-> & rest & ->). now exists rest.
      * intros (rest & H). injection H as -> ->. split; [reflexivity|].
        now exists rest.
Qed.

Lemma hard_errors_In (es : list jsstring) (code : jsstring) :
  In code (hard_errors es) <-> In (js "E" ++ code) es.
Proof.
  unfold hard_errors. rewrite in_map_iff. split.
  - intros (e & Hcode & Hin). apply filter_In in Hin as [Hin Hstart].
    apply startsWith_app in Hstart as (rest & ->).
    change (rest = code) in Hcode. now subst.
  - intros Hin. exists (js "E" ++ code). split; [reflexivity|].
    apply filter_In. split; [assumption|].
    apply startsWith_app. now exists code.
Qed.

Lemma hard_errors_nil (es : list jsstring) :
  hard_errors es = [] <->
  forallb (fun e => negb (startsWith e (js "E"))) es = true.
Proof.
  unfold hard_errors. induction es as [|e es IH]; cbn [filter forallb map].
  - tauto.
  - destruct (startsWith e (js "E")); cbn [map negb andb]; [|exact IH].
    split; discriminate.
Qed.

Lemma hard_errors_cons (es : list jsstring) :
  hard_errors es <> [] <->
  existsb (fun e => startsWith e (js "E")) es = true.
Proof.
  unfold hard_errors. induction es as [|e es IH]; cbn [filter existsb map].
  - split; [congruence|discriminate].
  - destruct (startsWith e (js "E")); cbn [map orb]; [|exact IH].
    split; [reflexivity|discriminate].
Qed.

Section Transport.

Context {codec : Codec}.

Lemma rawRequest_sends
    (url : jsstring) (headers data : object) (timeout : Z)
    (method : jsstring) (reply : got_reply) :
  snd (rawRequest url headers data timeout method reply) =
  [Got (if jsstring_eqb method (js "POST")
        then url ++ js "?" ++ qs_stringify data else url)
       (set headers (js "User-Agent")
          (VStr (js "Buzzex Javascript API Client")))
       timeout method (qs_stringify data)].
Proof. reflexivity. Qed.

(** C6.  For a parsed response whose error array is present and not
    empty: when no entry starts with 'E' the request is rejected with the
    unknown-error [Error]; when some entry starts with 'E' it is
    fulfilled with the parsed response; and the extracted codes are
    exactly the 'E' entries without their first character. *)
Theorem rawRequest_error_array
    (url : jsstring) (headers data : object) (timeout : Z)
    (method body : jsstring) (response : ApiResponse) (es : list jsstring) :
  JSON_parse body = Some response ->
  error response = Some es ->
  es <> [] ->
  let settled :=
    fst (rawRequest url headers data timeout method (GotBody body)) in
  (forallb (fun e => negb (startsWith e (js "E"))) es = true ->
   settled = Rejected (Error (js "Buzzex API returned an unknown error"))) /\
  (existsb (fun e => startsWith e (js "E")) es = true ->
   settled = Fulfilled response) /\
  (forall code, In code (hard_errors es) <-> In (js "E" ++ code) es) /\
  hard_errors [js "EGeneral:Invalid"] = [js "General:Invalid"].
Proof.
  intros Hparse Herr Hne settled.
  assert (Hs : settled = check_response response).
  { unfold settled, rawRequest. simpl. now rewrite Hparse. }
  rewrite Hs. unfold check_response. rewrite Herr.
  destruct es as [|e0 es0]; [congruence|].
  repeat split.
  - intros Hall. apply hard_errors_nil in Hall. now rewrite Hall.
  - intros Hex. apply hard_errors_cons in Hex.
    destruct (hard_errors (e0 :: es0)); congruence.
  - apply hard_errors_In.
  - apply hard_errors_In.
Qed.

End Transport.

(** The example of C6 run against the stand-in parser: a body with one
    soft entry is rejected, a body with one hard entry is fulfilled. *)
Lemma rawRequest_error_array_witness :
  fst (@rawRequest Toy.codec (js "u") [] [] 5000 (js "GET")
         (GotBody (js "soft")))
  = Rejected (Error (js "Buzzex API returned an unknown error")) /\
  fst (@rawRequest Toy.codec (js "u") [] [] 5000 (js "GET")
         (GotBody (js "hard")))
  = Fulfilled Toy.body_hard.
Proof.
  split.
  - apply (@rawRequest_error_array Toy.codec
             (js "u") [] [] 5000 (js "GET") (js "soft")
             Toy.body_soft [js "Warning:Foo"]);
      [reflexivity | reflexivity | discriminate | reflexivity].
  - apply (@rawRequest_error_array Toy.codec
             (js "u") [] [] 5000 (js "GET") (js "hard")
             Toy.body_hard [js "EGeneral:Invalid"]);
      [reflexivity | reflexivity | discriminate | reflexivity].
Defined.

(** ** The client *)

Section Client.

Context {crypto : Crypto} {codec : Codec}.

Lemma api_invalid_method_throws
    (this : config) (method : jsstring) (params : argument)
    (cb : option callback) (w : world) :
  includes methods.public method = false ->
  includes methods.private method = false ->
  result (api this method params cb w) =
    Thrown (Error (method ++ js " is not a valid API method.")) /\
  trace (api this method params cb w) = [].
Proof.
  intros Hpub Hpriv. unfold api.
  destruct params; rewrite Hpub, Hpriv; split; reflexivity.
Qed.

Lemma publicMethod_returns_promise
    (this : config) (method : jsstring) (params : argument)
    (cb : option callback) (w : world) :
  exists p, result (publicMethod this method params cb w) = ReturnedPromise p.
Proof.
  unfold publicMethod. destruct (shift_arguments params cb) as [o cb'].
  destruct (rawRequest _ _ _ _ _ _) as [response sent]. now exists response.
Qed.

Lemma privateMethod_returns_undefined
    (this : config) (method : jsstring) (params : argument)
    (cb : option callback) (w : world) :
  result (privateMethod this method params cb w) = ReturnedUndefined.
Proof.
  unfold privateMethod. destruct (shift_arguments params cb) as [o cb'].
  destruct (getToken _ _ _) as [token asked]. reflexivity.
Qed.

Lemma notify_quiet (cb : option callback) (p : promise ApiResponse) :
  sent_urls (notify cb p) = [] /\ token_fetches (notify cb p) = 0%nat.
Proof. destruct cb, p; split; reflexivity. Qed.

(** What [publicMethod] sends, for an object in the [params] position. *)
Lemma publicMethod_request
    (this : config) (method : jsstring) (o : object)
    (cb : option callback) (w : world) :
  exists done,
    trace (publicMethod this method (ArgObject o) cb w) =
    Got (url this ++ (js "/api/v1/" ++ method) ++ js "/" ++
         ToString (get o (js "param")))
        [(js "User-Agent", VStr (js "Buzzex Javascript API Client"))]
        (timeout this) (js "GET") (qs_stringify o) :: done /\
    sent_urls done = [] /\ token_fetches done = 0%nat.
Proof.
  unfold publicMethod, shift_arguments, rawRequest.
  eexists. split; [reflexivity|]. apply notify_quiet.
Qed.

Lemma token_fetches_app (s t : list event) :
  token_fetches (s ++ t) = (token_fetches s + token_fetches t)%nat.
Proof. unfold token_fetches. now rewrite filter_app, length_app. Qed.

Lemma sent_urls_app (s t : list event) :
  sent_urls (s ++ t) = sent_urls s ++ sent_urls t.
Proof.
  induction s as [|[] s IH]; simpl; auto. now rewrite IH.
Qed.

(** ** Preparation of the parameters of a private call *)

Lemma privateMethod_params_after
    (this : config) (method : jsstring) (params : argument)
    (cb : option callback) (w : world) :
  params_after (privateMethod this method params cb w) =
  ArgObject (prepared this method w (fst (shift_arguments params cb))).
Proof.
  unfold privateMethod. destruct (shift_arguments params cb) as [o cb'].
  destruct (getToken _ _ _) as [token asked]. reflexivity.
Qed.

Lemma normalize_param_other (method : jsstring) (o : object) (k : jsstring) :
  k <> js "param" -> get (normalize_param method o) k = get o k.
Proof.
  intros Hk. unfold normalize_param.
  destruct (get o (js "param"));
    try destruct (negb _); auto using get_set_other.
Qed.

Lemma inject_nonce_other (w : world) (o : object) (k : jsstring) :
  k <> js "nonce" -> get (inject_nonce w o) k = get o k.
Proof.
  intros Hk. unfold inject_nonce.
  destruct (negb _); auto using get_set_other.
Qed.

Lemma inject_otp_other (this : config) (o : object) (k : jsstring) :
  k <> js "otp" -> get (inject_otp this o) k = get o k.
Proof.
  intros Hk. unfold inject_otp.
  destruct (otp this); auto using get_set_other.
Qed.

(** The keys a private call writes are [param], [nonce] and [otp]; every
    other property of the caller's object reads as before. *)
Lemma prepared_frame
    (this : config) (method : jsstring) (w : world) (o : object)
    (k : jsstring) :
  k <> js "param" -> k <> js "nonce" -> k <> js "otp" ->
  get (prepared this method w o) k = get o k.
Proof.
  intros Hp Hn Ho. unfold prepared.
  now rewrite inject_otp_other, inject_nonce_other, normalize_param_other.
Qed.

Lemma prepared_nonce
    (this : config) (method : jsstring) (w : world) (o : object) :
  get (prepared this method w o) (js "nonce") =
  if truthy (get o (js "nonce")) then get o (js "nonce")
  else VNum (now w * 1000).
Proof.
  unfold prepared. rewrite inject_otp_other by discriminate.
  unfold inject_nonce.
  rewrite (normalize_param_other method o (js "nonce")) by discriminate.
  destruct (truthy (get o (js "nonce"))); simpl.
  - apply normalize_param_other. discriminate.
  - apply get_set_same.
Qed.

Lemma prepared_param
    (this : config) (method : jsstring) (w : world) (o : object) :
  get (prepared this method w o) (js "param") =
  match get o (js "param") with
  | VUndef => VStr []
  | v => if jsstring_eqb method (js "trade") then v
         else VStr (js "/" ++ ToString v)
  end.
Proof.
  unfold prepared. rewrite inject_otp_other, inject_nonce_other
    by discriminate.
  unfold normalize_param.
  destruct (get o (js "param")) eqn:E;
    try (destruct (jsstring_eqb method (js "trade")); simpl);
    rewrite ?get_set_same; auto.
Qed.

(** What [privateMethod] sends once the token was granted. *)
Lemma privateMethod_trace
    (this : config) (method : jsstring) (params : argument)
    (cb : option callback) (w : world) (value : object) :
  token_reply w = RequestBody value ->
  let o := fst (shift_arguments params cb) in
  let u :=
    url this ++ (js "/api/v1/trading/" ++ method) ++
    ToString (get (normalize_param method o) (js "param")) in
  let post := jsstring_eqb method (js "trade") in
  exists done,
    trace (privateMethod this method params cb w) =
    Request (js "https://api.buzzex.io/api/token") (js "POST")
      [(js "grant_type", VStr (js "client_credentials"));
       (js "client_id", VStr (key this));
       (js "client_secret", VStr (secret this))]
    :: Got (if post
            then u ++ js "?" ++ qs_stringify (prepared this method w o)
            else u)
         [(js "Authorization",
           VStr (js "Bearer " ++ ToString (get value (js "access_token"))));
          (js "User-Agent", VStr (js "Buzzex Javascript API Client"))]
         (timeout this)
         (if post then js "POST" else js "GET")
         (qs_stringify (prepared this method w o))
    :: done /\
    sent_urls done = [] /\ token_fetches done = 0%nat.
Proof.
  intros Htok o u post. subst o u post.
  unfold privateMethod. destruct (shift_arguments params cb) as [o cb'].
  unfold getToken. rewrite Htok.
  unfold rawRequest. fold (prepared this method w o). cbn [fst].
  destruct (jsstring_eqb method (js "trade"));
    (eexists; split; [reflexivity|apply notify_quiet]).
Qed.

(** What [privateMethod] sends when the token POST fails. *)
Lemma privateMethod_trace_stalled
    (this : config) (method : jsstring) (params : argument)
    (cb : option callback) (w : world) (e : exn) :
  token_reply w = RequestFailed e ->
  trace (privateMethod this method params cb w) =
  [Request (js "https://api.buzzex.io/api/token") (js "POST")
     [(js "grant_type", VStr (js "client_credentials"));
      (js "client_id", VStr (key this));
      (js "client_secret", VStr (secret this))]].
Proof.
  intros Htok. unfold privateMethod.
  destruct (shift_arguments params cb) as [o cb'].
  unfold getToken. rewrite Htok. reflexivity.
Qed.

Lemma privateMethod_token_fetches
    (this : config) (method : jsstring) (params : argument)
    (cb : option callback) (w : world) :
  token_fetches (trace (privateMethod this method params cb w)) = 1%nat.
Proof.
  destruct (token_reply w) as [e|value] eqn:Htok.
  - now rewrite (privateMethod_trace_stalled _ _ _ _ _ _ Htok).
  - destruct (privateMethod_trace this method params cb w value Htok)
      as (done & -> & _ & Hdone).
    change (S (token_fetches done) = 1%nat). now rewrite Hdone.
Qed.

Lemma publicMethod_token_fetches
    (this : config) (method : jsstring) (params : argument)
    (cb : option callback) (w : world) :
  token_fetches (trace (publicMethod this method params cb w)) = 0%nat.
Proof.
  unfold publicMethod. destruct (shift_arguments params cb) as [o cb'].
  unfold rawRequest. cbn [trace app].
  change (token_fetches (notify cb'
    (fst (rawRequest [] [] [] 0 [] (api_reply w)))) = 0%nat).
  apply notify_quiet.
Qed.

(** C7.  A call of [api] with a public method name sends no
    credential-grant POST; a call with a private method name sends exactly
    one. *)
Theorem api_token_fetches
    (this : config) (method : jsstring) (params : argument)
    (cb : option callback) (w : world) :
  (includes methods.public method = true ->
   token_fetches (trace (api this method params cb w)) = 0%nat) /\
  (includes methods.private method = true ->
   token_fetches (trace (api this method params cb w)) = 1%nat).
Proof.
  split; intros Hin; unfold api.
  - rewrite Hin. destruct params; apply publicMethod_token_fetches.
  - rewrite (private_not_public _ Hin), Hin.
    destruct params; apply privateMethod_token_fetches.
Qed.

(** C10.  A function in the [params] position is taken as the callback,
    with an empty parameter map: each of the three methods then runs as
    if called with an empty object and that callback. *)
Theorem function_in_params_position
    (this : config) (method : jsstring) (f : callback) (w : world) :
  api this method (ArgFunction f) None w =
    api this method (ArgObject []) (Some f) w /\
  publicMethod this method (ArgFunction f) None w =
    publicMethod this method (ArgObject []) (Some f) w /\
  privateMethod this method (ArgFunction f) None w =
    privateMethod this method (ArgObject []) (Some f) w.
Proof. repeat split. Qed.

(** C4, as amended.  A truthy [params.nonce] is left as the caller gave
    it.  A missing or falsy one (undefined, null, 0, the empty string,
    false) is replaced by 1000 times the clock's reading in milliseconds:
    a positive integer, and not smaller than the time the call started in
    microsecond units, when the clock is past the epoch and did not run
    backwards since the call started. *)
Theorem privateMethod_nonce
    (this : config) (method : jsstring) (o : object)
    (cb : option callback) (w : world) (start : Z) :
  0 < now w ->
  start <= now w ->
  let after := params_after (privateMethod this method (ArgObject o) cb w) in
  (truthy (get o (js "nonce")) = true ->
   property after (js "nonce") = get o (js "nonce")) /\
  (truthy (get o (js "nonce")) = false ->
   exists n, property after (js "nonce") = VNum n /\
             n = now w * 1000 /\ 0 < n /\ start * 1000 <= n).
Proof.
  intros Hpos Hstart after. subst after.
  rewrite privateMethod_params_after. unfold property, object_of.
  cbn [shift_arguments fst]. rewrite prepared_nonce.
  split; intros ->; [reflexivity|].
  exists (now w * 1000). repeat split; lia.
Qed.

(** C5, as amended.  Once the token is granted, a private call asks for
    the base URL followed by /api/v1/trading/, the method name and a
    suffix: nothing when [params.param] is undefined; a slash and the
    parameter when it is defined and the method is not trade; the
    parameter itself, with no slash, when the method is trade.  A trade
    is a POST whose URL goes on with a question mark and the serialized
    parameters.  [params.param] ends as the empty string, the slashed
    parameter, or unchanged, in the same three cases. *)
Theorem privateMethod_url
    (this : config) (method : jsstring) (o : object)
    (cb : option callback) (w : world) (value : object) :
  token_reply w = RequestBody value ->
  let r := privateMethod this method (ArgObject o) cb w in
  let p := get o (js "param") in
  let trade := jsstring_eqb method (js "trade") in
  let suffix :=
    match p with
    | VUndef => []
    | _ => if trade then ToString p else js "/" ++ ToString p
    end in
  let query :=
    if trade then js "?" ++ qs_stringify (object_of (params_after r))
    else [] in
  sent_urls (trace r) =
    [url this ++ js "/api/v1/trading/" ++ method ++ suffix ++ query] /\
  property (params_after r) (js "param") =
    match p with
    | VUndef => VStr []
    | _ => if trade then p else VStr (js "/" ++ ToString p)
    end.
Proof.
  intros Htok r p trade suffix query.
  assert (Hafter : params_after r = ArgObject (prepared this method w o))
    by apply privateMethod_params_after.
  split.
  - destruct (privateMethod_trace this method (ArgObject o) cb w value Htok)
      as (done & Htrace & Hurls & _).
    fold r in Htrace. rewrite Htrace. cbn [sent_urls]. rewrite Hurls.
    cbn [shift_arguments fst].
    subst query. rewrite Hafter. cbn [object_of]. fold trade.
    assert (Hsuffix :
      ToString (get (normalize_param method o) (js "param")) = suffix).
    { pose proof (prepared_param this method w o) as Hp.
      unfold prepared in Hp.
      rewrite inject_otp_other, inject_nonce_other in Hp by discriminate.
      rewrite Hp. subst suffix p trade.
      destruct (get o (js "param")); try reflexivity;
        destruct (jsstring_eqb method (js "trade")); reflexivity. }
    rewrite Hsuffix.
    destruct trade; rewrite <- ?app_assoc, ?app_nil_r; reflexivity.
  - rewrite Hafter. unfold property, object_of. rewrite prepared_param.
    subst p trade. destruct (get o (js "param")); reflexivity.
Qed.

(** C8.  The signature never reaches the wire.  What a private call does
    (result, traffic, final parameters) is the same whatever the crypto
    package computes; every request it hands to the transport carries
    exactly the Authorization and User-Agent headers and, as body, the
    serialized final parameters; and these differ from the caller's only
    at [param], [nonce] and [otp]. *)
Theorem privateMethod_signature_discarded
    (other : Crypto) (this : config) (method : jsstring) (params : argument)
    (cb : option callback) (w : world) :
  let r := @privateMethod crypto codec this method params cb w in
  r = @privateMethod other codec this method params cb w /\
  (forall u h t m b, In (Got u h t m b) (trace r) ->
     exists value,
       token_reply w = RequestBody value /\
       h = [(js "Authorization",
             VStr (js "Bearer " ++ ToString (get value (js "access_token"))));
            (js "User-Agent", VStr (js "Buzzex Javascript API Client"))] /\
       b = qs_stringify (object_of (params_after r))) /\
  (forall k, k <> js "param" -> k <> js "nonce" -> k <> js "otp" ->
     property (params_after r) k = get (fst (shift_arguments params cb)) k).
Proof.
  intros r. split; [reflexivity|]. subst r. split.
  - intros u h t m b Hin. rewrite privateMethod_params_after.
    cbn [object_of].
    destruct (token_reply w) as [e|value] eqn:Htok.
    + rewrite (privateMethod_trace_stalled _ _ _ _ _ _ Htok) in Hin.
      destruct Hin as [Hin|[]]. discriminate.
    + exists value. split; [reflexivity|].
      destruct (privateMethod_trace this method params cb w value Htok)
        as (done & Htrace & Hurls & _).
      rewrite Htrace in Hin.
      destruct Hin as [Hin|[Hin|Hin]]; [discriminate| |].
      * injection Hin as _ <- _ _ <-. split; reflexivity.
      * exfalso. apply in_split in Hin as (l1 & l2 & ->).
        rewrite sent_urls_app in Hurls. cbn [sent_urls] in Hurls.
        now destruct (sent_urls l1).
  - intros k Hp Hn Ho. rewrite privateMethod_params_after.
    unfold property, object_of. now apply prepared_frame.
Qed.

End Client.

(** ** Runs in the sample world *)

(** C1.  [api('getinfo', {})] hands its caller undefined, not a promise,
    although the token POST and the API request are both sent. *)
Theorem api_private_returns_undefined :
  let r := @api Toy.crypto Toy.codec Toy.client (js "getinfo")
             (ArgObject []) None Toy.fine in
  result r = ReturnedUndefined /\
  token_fetches (trace r) = 1%nat /\
  sent_urls (trace r) = [js "https://api.buzzex.io/api/v1/trading/getinfo"].
Proof. repeat split. Qed.

(** The two other branches of [api] in the same world: an unknown name
    throws before anything is sent, a public name returns the promise of
    [rawRequest]. *)
Example api_bogus_method :
  let r := @api Toy.crypto Toy.codec Toy.client (js "bogus-method")
             (ArgObject []) None Toy.fine in
  result r = Thrown (Error (js "bogus-method is not a valid API method.")) /\
  trace r = [].
Proof. split; reflexivity. Qed.

Example api_public_round_trip :
  result (@api Toy.crypto Toy.codec Toy.client (js "ticker")
            (ArgObject [(js "param", VStr (js "BTC_USD"))]) None Toy.fine)
  = ReturnedPromise (Fulfilled Toy.body_ok).
Proof. reflexivity. Qed.

(** C9.  [publicMethod('info', {})] asks for a URL that ends in
    /undefined: a segment is appended although [params.param] is absent. *)
Theorem publicMethod_absent_param_url :
  sent_urls (trace (@publicMethod Toy.codec Toy.client (js "info")
                      (ArgObject []) None Toy.fine))
  = [js "https://api.buzzex.io/api/v1/info/undefined"].
Proof. reflexivity. Qed.

(** C4 fails as stated: a caller who supplies the nonce 0 finds it
    replaced by the clock's reading. *)
Lemma privateMethod_nonce_zero_replaced :
  let o := [(js "nonce", VNum 0)] in
  let after :=
    params_after (@privateMethod Toy.crypto Toy.codec Toy.client
                    (js "getinfo") (ArgObject o) None Toy.fine) in
  get o (js "nonce") = VNum 0 /\
  property after (js "nonce") = VNum 1700000000000000 /\
  property after (js "nonce") <> get o (js "nonce").
Proof. repeat split. discriminate. Qed.

(** C5 fails as stated: the free-form parameter of a trade is part of the
    URL's path, glued to the method name. *)
Lemma privateMethod_trade_param_in_url :
  let sent :=
    sent_urls (trace (@privateMethod Toy.crypto Toy.codec Toy.client
                        (js "trade")
                        (ArgObject [(js "param", VStr (js "BTC"))])
                        None Toy.fine)) in
  sent = [js "https://api.buzzex.io/api/v1/trading/tradeBTC?param=BTC&nonce=1700000000000000"] /\
  sent <> [js "https://api.buzzex.io/api/v1/trading/trade?param=BTC&nonce=1700000000000000"] /\
  sent <> [js "https://api.buzzex.io/api/v1/trading/trade"].
Proof. repeat split; discriminate. Qed.

Lemma privateMethod_nonce_witness :
  (0 < now Toy.fine /\ 1699999999999 <= now Toy.fine) /\
  exists n,
    property
      (params_after (@privateMethod Toy.crypto Toy.codec Toy.client
                       (js "getinfo") (ArgObject []) None Toy.fine))
      (js "nonce") = VNum n /\
    n = now Toy.fine * 1000 /\ 0 < n /\ 1699999999999 * 1000 <= n.
Proof.
  assert (Hpos : 0 < now Toy.fine) by reflexivity.
  assert (Hstart : 1699999999999 <= now Toy.fine) by discriminate.
  split; [split; assumption|].
  apply (@privateMethod_nonce Toy.crypto Toy.codec Toy.client (js "getinfo")
           [] None Toy.fine 1699999999999 Hpos Hstart).
  reflexivity.
Defined.

Lemma privateMethod_url_witness :
  token_reply Toy.fine = RequestBody Toy.token /\
  sent_urls (trace (@privateMethod Toy.crypto Toy.codec Toy.client
                      (js "order-info")
                      (ArgObject [(js "param", VNum 42)]) None Toy.fine))
  = [js "https://api.buzzex.io/api/v1/trading/order-info/42"].
Proof.
  split; [reflexivity|].
  apply (@privateMethod_url Toy.crypto Toy.codec Toy.client (js "order-info")
           [(js "param", VNum 42)] None Toy.fine Toy.token eq_refl).
Defined.

Lemma api_token_fetches_witness :
  token_fetches (trace (@api Toy.crypto Toy.codec Toy.client (js "depth")
                          (ArgObject []) None Toy.fine)) = 0%nat /\
  token_fetches (trace (@api Toy.crypto Toy.codec Toy.client
                          (js "cancel-order")
                          (ArgObject []) (Some 7%nat) Toy.fine)) = 1%nat.
Proof.
  split.
  - apply (@api_token_fetches Toy.crypto Toy.codec Toy.client (js "depth")
             (ArgObject []) None Toy.fine).
    reflexivity.
  - apply (@api_token_fetches Toy.crypto Toy.codec Toy.client
             (js "cancel-order") (ArgObject []) (Some 7%nat) Toy.fine).
    reflexivity.
Defined.

Lemma privateMethod_signature_discarded_witness :
  @getMessageSignature Toy.crypto Toy.codec (js "/p") [] (js "s") (VNum 1) <>
  @getMessageSignature Toy.other_crypto Toy.codec (js "/p") [] (js "s") (VNum 1) /\
  @privateMethod Toy.crypto Toy.codec Toy.client (js "trade")
    (ArgObject [(js "pair", VStr (js "btc_usd"))]) None Toy.fine =
  @privateMethod Toy.other_crypto Toy.codec Toy.client (js "trade")
    (ArgObject [(js "pair", VStr (js "btc_usd"))]) None Toy.fine.
Proof.
  split; [discriminate|].
  apply (@privateMethod_signature_discarded Toy.crypto Toy.codec
           Toy.other_crypto
           Toy.client (js "trade")
           (ArgObject [(js "pair", VStr (js "btc_usd"))]) None Toy.fine).
Defined.

(** * Further properties of the program *)

(** ** The signer and the 'binary' encoding *)

Lemma byte_of_code_unit_low_byte (c : N) :
  byte_of_code_unit (low_byte c) = byte_of_code_unit c.
Proof.
  unfold byte_of_code_unit, low_byte. now rewrite N.Div0.mod_mod.
Qed.

Lemma binary_encode_low_byte (s : jsstring) :
  binary_encode (map low_byte s) = binary_encode s.
Proof.
  unfold binary_encode. rewrite map_map.
  apply map_ext. intros c. apply byte_of_code_unit_low_byte.
Qed.

Section MoreSigner.

Context {crypto : Crypto} {codec : Codec}.

(** X1.  The signature sees only the low eight bits of every code unit
    of the path: two paths that agree on those bits sign alike. *)
Theorem getMessageSignature_low_bytes
    (path1 path2 : jsstring) (request : object) (secret : jsstring)
    (nonce : value) :
  map low_byte path1 = map low_byte path2 ->
  getMessageSignature path1 request secret nonce =
  getMessageSignature path2 request secret nonce.
Proof.
  intros Hlow. unfold getMessageSignature.
  rewrite !binary_encode_app.
  rewrite <- (binary_encode_low_byte path1), Hlow, binary_encode_low_byte.
  reflexivity.
Qed.

End MoreSigner.

Lemma getMessageSignature_low_bytes_witness :
  js "/A" <> [47%N; 321%N] /\
  @getMessageSignature Toy.crypto Toy.codec (js "/A") [] (js "s") (VNum 1) =
  @getMessageSignature Toy.crypto Toy.codec [47%N; 321%N] [] (js "s")
    (VNum 1).
Proof.
  split; [discriminate|].
  apply (@getMessageSignature_low_bytes Toy.crypto Toy.codec
           (js "/A") [47%N; 321%N] [] (js "s") (VNum 1)).
  reflexivity.
Defined.

(** ** The transport *)

Section MoreTransport.

Context {codec : Codec}.





(** X3.  [rawRequest] hands [got] one request.  Its headers are the
    caller's with User-Agent set to the client's own string, replacing a
    User-Agent of the caller; timeout and method are passed on as given,
    and the body is the serialized data. *)
Theorem rawRequest_headers
    (url : jsstring) (headers data : object) (timeout : Z)
    (method : jsstring) (reply : got_reply) :
  exists u h,
    snd (rawRequest url headers data timeout method reply) =
      [Got u h timeout method (qs_stringify data)] /\
    get h (js "User-Agent") = VStr (js "Buzzex Javascript API Client") /\
    (forall k, k <> js "User-Agent" -> get h k = get headers k).
Proof.
  unfold rawRequest. cbn [snd]. eexists. eexists.
  split; [reflexivity|]. split.
  - apply get_set_same.
  - intros k Hk. apply get_set_other. congruence.
Qed.

End MoreTransport.

(** ** The client *)

Section MoreClient.

Context {crypto : Crypto} {codec : Codec}.

Lemma callback_calls_notify (cb : option callback) (p : promise ApiResponse) :
  callback_calls (notify cb p) = notify cb p.
Proof. destruct cb, p; reflexivity. Qed.

Lemma notify_callbacks
    (cb : option callback) (p : promise ApiResponse) (ev : event) :
  In ev (notify cb p) -> is_callback ev = true.
Proof. destruct cb, p; simpl; intros [<-|[]] || intros []; reflexivity. Qed.

Lemma sent_methods_notify (cb : option callback) (p : promise ApiResponse) :
  sent_methods (notify cb p) = [].
Proof. destruct cb, p; reflexivity. Qed.


(** X4.  [api] hands a public name to [publicMethod] and a private name
    to [privateMethod], with the arguments it was given: on those names
    the three entry points cannot be told apart. *)
Theorem api_dispatch
    (this : config) (method : jsstring) (params : argument)
    (cb : option callback) (w : world) :
  (includes methods.public method = true ->
   api this method params cb w = publicMethod this method params cb w) /\
  (includes methods.private method = true ->
   api this method params cb w = privateMethod this method params cb w).
Proof.
  split; intros Hin; unfold api.
  - rewrite Hin. destruct params; reflexivity.
  - rewrite (private_not_public _ Hin), Hin. destruct params; reflexivity.
Qed.

(** X5.  A name in neither table makes [api] throw an [Error] whose
    message is the name followed by " is not a valid API method.", with
    nothing sent and no callback invoked. *)
Theorem api_unknown_method
    (this : config) (method : jsstring) (params : argument)
    (cb : option callback) (w : world) :
  includes methods.public method = false ->
  includes methods.private method = false ->
  let r := api this method params cb w in
  result r = Thrown (Error (method ++ js " is not a valid API method.")) /\
  trace r = [].
Proof.
  intros Hpub Hpriv r. subst r. unfold api.
  destruct params; rewrite Hpub, Hpriv; split; reflexivity.
Qed.


(** X7.  A public call without a callback sends its one request and
    invokes nothing; with or without one, it sends no Authorization
    header: the only header is User-Agent, the method is GET and the
    timeout is the configured one. *)
Theorem publicMethod_headers
    (this : config) (method : jsstring) (params : argument)
    (cb : option callback) (w : world) :
  let r := publicMethod this method params cb w in
  (forall u h t m b, In (Got u h t m b) (trace r) ->
     h = [(js "User-Agent", VStr (js "Buzzex Javascript API Client"))] /\
     t = timeout this /\ m = js "GET") /\
  sent_methods (trace r) = [js "GET"] /\
  (snd (shift_arguments params cb) = None -> callback_calls (trace r) = []).
Proof.
  intros r. subst r. unfold publicMethod.
  destruct (shift_arguments params cb) as [o cb'].
  unfold rawRequest. cbn [trace app snd]. split; [|split].
  - intros u h t m b [H|H].
    + injection H as _ <- <- <- _. repeat split.
    + apply notify_callbacks in H. discriminate.
  - cbn [sent_methods]. now rewrite sent_methods_notify.
  - intros ->. reflexivity.
Qed.

(** The whole trace of a private call once the token was granted. *)
Lemma privateMethod_after_token
    (this : config) (method : jsstring) (params : argument)
    (cb : option callback) (w : world) (value : object) :
  token_reply w = RequestBody value ->
  exists u h b,
    trace (privateMethod this method params cb w) =
    Request (js "https://api.buzzex.io/api/token") (js "POST")
      [(js "grant_type", VStr (js "client_credentials"));
       (js "client_id", VStr (key this));
       (js "client_secret", VStr (secret this))]
    :: Got u h (timeout this)
         (if jsstring_eqb method (js "trade") then js "POST" else js "GET") b
    :: notify (snd (shift_arguments params cb))
         (fst (rawRequest u h [] 0 [] (api_reply w))).
Proof.
  intros Htok. unfold privateMethod.
  destruct (shift_arguments params cb) as [o cb'].
  unfold getToken. rewrite Htok. unfold rawRequest.
  do 3 eexists. reflexivity.
Qed.

(** X8.  When the token POST fails, a private call ends there: no API
    request is sent, the callback is never invoked, and the caller holds
    undefined; the failure reaches nobody. *)
Theorem privateMethod_token_failure_silent
    (this : config) (method : jsstring) (params : argument)
    (cb : option callback) (w : world) (e : exn) :
  token_reply w = RequestFailed e ->
  let r := privateMethod this method params cb w in
  result r = ReturnedUndefined /\
  sent_urls (trace r) = [] /\
  callback_calls (trace r) = [] /\
  token_fetches (trace r) = 1%nat.
Proof.
  intros Htok r. subst r.
  rewrite (privateMethod_trace_stalled _ _ _ _ _ _ Htok).
  rewrite privateMethod_returns_undefined. repeat split.
Qed.


(** X10.  Once the token is granted, a private call sends one API
    request: a POST when the method is trade, a GET for every other
    name, with the configured timeout. *)
Theorem privateMethod_http_method
    (this : config) (method : jsstring) (params : argument)
    (cb : option callback) (w : world) (value : object) :
  token_reply w = RequestBody value ->
  let r := privateMethod this method params cb w in
  (method = js "trade" -> sent_methods (trace r) = [js "POST"]) /\
  (method <> js "trade" -> sent_methods (trace r) = [js "GET"]) /\
  (forall u h t m b, In (Got u h t m b) (trace r) -> t = timeout this).
Proof.
  intros Htok r. subst r.
  destruct (privateMethod_after_token this method params cb w value Htok)
    as (u & h & b & ->).
  cbn [sent_methods]. rewrite sent_methods_notify. repeat split.
  - intros ->. reflexivity.
  - intros Hne. apply jsstring_eqb_neq in Hne. now rewrite Hne.
  - intros u' h' t m b' [H|[H|H]]; [discriminate| |].
    + now injection H as _ _ <- _ _.
    + apply notify_callbacks in H. discriminate.
Qed.

(** X11.  Every private call begins by posting the client's key and
    secret to https://api.buzzex.io/api/token, whatever base URL the
    client was configured with and whatever the parameters are. *)
Theorem privateMethod_token_endpoint
    (this : config) (method : jsstring) (params : argument)
    (cb : option callback) (w : world) :
  hd_error (trace (privateMethod this method params cb w)) =
  Some (Request (js "https://api.buzzex.io/api/token") (js "POST")
          [(js "grant_type", VStr (js "client_credentials"));
           (js "client_id", VStr (key this));
           (js "client_secret", VStr (secret this))]).
Proof.
  destruct (token_reply w) as [e|value] eqn:Htok.
  - now rewrite (privateMethod_trace_stalled _ _ _ _ _ _ Htok).
  - destruct (privateMethod_after_token this method params cb w value Htok)
      as (u & h & b & ->).
    reflexivity.
Qed.

(** X12.  A parameter object used for a second private call keeps the
    nonce the first call gave it: when the first call found no truthy
    nonce and its clock was not at the epoch, the second call leaves the
    first call's nonce in place, whatever its own clock reads. *)
Theorem privateMethod_reuse_nonce
    (this1 this2 : config) (method1 method2 : jsstring) (o : object)
    (cb1 cb2 : option callback) (w1 w2 : world) :
  truthy (get o (js "nonce")) = false ->
  now w1 <> 0 ->
  let first := privateMethod this1 method1 (ArgObject o) cb1 w1 in
  let second := privateMethod this2 method2 (params_after first) cb2 w2 in
  property (params_after second) (js "nonce") = VNum (now w1 * 1000).
Proof.
  intros Hfalsy Hclock first second. subst first second.
  rewrite !privateMethod_params_after. unfold property, object_of.
  cbn [shift_arguments fst].
  rewrite prepared_nonce, prepared_nonce, Hfalsy.
  cbn [truthy]. destruct (Z.eqb_spec (now w1 * 1000) 0); [lia|reflexivity].
Qed.

(** X13.  A parameter object used for a second private call of a method
    other than trade gets one more slash: after the second call
    [params.param] is a slash followed by what the first call left
    there, and the second request goes to the method's URL followed by
    that. *)
Theorem privateMethod_reuse_param
    (this : config) (method : jsstring) (o : object)
    (cb1 cb2 : option callback) (w1 w2 : world) (value : object) :
  method <> js "trade" ->
  token_reply w2 = RequestBody value ->
  let first := privateMethod this method (ArgObject o) cb1 w1 in
  let second := privateMethod this method (params_after first) cb2 w2 in
  let left := ToString (property (params_after first) (js "param")) in
  property (params_after second) (js "param") = VStr (js "/" ++ left) /\
  sent_urls (trace second) =
    [url this ++ js "/api/v1/trading/" ++ method ++ js "/" ++ left].
Proof.
  intros Hne Htok first second left.
  assert (Hfirst :
    params_after first = ArgObject (prepared this method w1 o))
    by apply privateMethod_params_after.
  assert (Hdefined :
    exists s, get (prepared this method w1 o) (js "param") = VStr s).
  { rewrite prepared_param. apply jsstring_eqb_neq in Hne. rewrite Hne.
    destruct (get o (js "param")); eauto. }
  destruct Hdefined as (s & Hs).
  assert (Hsecond :
    get (normalize_param method (prepared this method w1 o)) (js "param") =
    VStr (js "/" ++ s)).
  { unfold normalize_param. rewrite Hs.
    apply jsstring_eqb_neq in Hne. rewrite Hne. cbn [negb ToString].
    apply get_set_same. }
  subst left. rewrite Hfirst. unfold property at 2. cbn [object_of].
  rewrite Hs. cbn [ToString]. split.
  - subst second. rewrite Hfirst, privateMethod_params_after.
    unfold property, object_of. cbn [shift_arguments fst].
    unfold prepared at 1.
    rewrite inject_otp_other, inject_nonce_other by discriminate.
    exact Hsecond.
  - destruct (privateMethod_trace this method (params_after first) cb2 w2
                value Htok) as (done & Htrace & Hurls & _).
    fold second in Htrace. rewrite Htrace. cbn [sent_urls].
    rewrite Hurls, Hfirst. cbn [shift_arguments fst].
    rewrite Hsecond. apply jsstring_eqb_neq in Hne. rewrite Hne.
    unfold property. cbn [object_of ToString]. rewrite Hs.
    cbn [ToString]. now rewrite <- !app_assoc.
Qed.

(** X14.  A configured one-time password is written into [params.otp]
    by every private call, replacing one the caller put there; without
    one the caller's [params.otp] stays.  A client built with a string as
    third argument has that string as its one-time password. *)
Theorem privateMethod_otp
    (this : config) (method : jsstring) (o : object)
    (cb : option callback) (w : world) (k s p : jsstring) :
  let after c := params_after (privateMethod c method (ArgObject o) cb w) in
  (otp this <> VUndef -> property (after this) (js "otp") = otp this) /\
  (otp this = VUndef -> property (after this) (js "otp") = get o (js "otp")) /\
  property (after (BuzzexClient k s (OptionsString p))) (js "otp") = VStr p /\
  property (after (BuzzexClient k s OptionsUndefined)) (js "otp") =
    get o (js "otp").
Proof.
  intros after.
  assert (Hotp : forall c,
    property (after c) (js "otp") =
    match otp c with VUndef => get o (js "otp") | v => v end).
  { intros c. subst after. cbn beta.
    rewrite privateMethod_params_after. unfold property, object_of.
    cbn [shift_arguments fst]. unfold prepared, inject_otp.
    destruct (otp c); rewrite ?get_set_same; try reflexivity.
    now rewrite inject_nonce_other, normalize_param_other by discriminate. }
  repeat split.
  - intros Hset. rewrite Hotp. destruct (otp this); congruence.
  - intros Hunset. now rewrite Hotp, Hunset.
  - now rewrite Hotp.
  - now rewrite Hotp.
Qed.

(** X15.  The configured API version is never read: two clients that
    differ in nothing else get the same outcome from [api], whose URLs
    say v1 whatever the version is. *)
Theorem api_ignores_version
    (k s u : jsstring) (v v' t : Z) (o : value)
    (method : jsstring) (params : argument) (cb : option callback)
    (w : world) :
  api {| key := k; secret := s; url := u; version := v;
         timeout := t; otp := o |} method params cb w =
  api {| key := k; secret := s; url := u; version := v';
         timeout := t; otp := o |} method params cb w.
Proof. reflexivity. Qed.


End MoreClient.

(** ** The further properties at concrete inputs *)


Lemma rawRequest_headers_witness :
  exists u h,
    snd (@rawRequest Toy.codec (js "u")
           [(js "User-Agent", VStr (js "curl")); (js "Accept", VStr (js "*"))]
           [] 5000 (js "GET") (GotBody (js "ok"))) =
      [Got u h 5000 (js "GET") []] /\
    get h (js "User-Agent") = VStr (js "Buzzex Javascript API Client") /\
    get h (js "Accept") = VStr (js "*").
Proof.
  destruct (@rawRequest_headers Toy.codec (js "u")
              [(js "User-Agent", VStr (js "curl"));
               (js "Accept", VStr (js "*"))]
              [] 5000 (js "GET") (GotBody (js "ok")))
    as (u & h & Hsent & Hagent & Hrest).
  exists u, h. split; [exact Hsent|]. split; [exact Hagent|].
  rewrite Hrest; [reflexivity|discriminate].
Defined.

Lemma api_dispatch_witness :
  @api Toy.crypto Toy.codec Toy.client (js "trades")
    (ArgFunction 3%nat) (Some 4%nat) Toy.fine =
  @publicMethod Toy.codec Toy.client (js "trades")
    (ArgFunction 3%nat) (Some 4%nat) Toy.fine /\
  @api Toy.crypto Toy.codec Toy.client (js "active-orders")
    ArgUndefined None Toy.fine =
  @privateMethod Toy.crypto Toy.codec Toy.client (js "active-orders")
    ArgUndefined None Toy.fine.
Proof.
  split.
  - apply (@api_dispatch Toy.crypto Toy.codec Toy.client (js "trades")
             (ArgFunction 3%nat) (Some 4%nat) Toy.fine).
    reflexivity.
  - apply (@api_dispatch Toy.crypto Toy.codec Toy.client
             (js "active-orders") ArgUndefined None Toy.fine).
    reflexivity.
Defined.

Lemma api_unknown_method_witness :
  result (@api Toy.crypto Toy.codec Toy.client (js "Ticker")
            (ArgObject []) (Some 1%nat) Toy.fine)
  = Thrown (Error (js "Ticker is not a valid API method.")) /\
  trace (@api Toy.crypto Toy.codec Toy.client (js "Ticker")
           (ArgObject []) (Some 1%nat) Toy.fine) = [].
Proof.
  apply (@api_unknown_method Toy.crypto Toy.codec Toy.client (js "Ticker")
           (ArgObject []) (Some 1%nat) Toy.fine); reflexivity.
Defined.


Lemma publicMethod_headers_witness :
  sent_methods (trace (@publicMethod Toy.codec Toy.client (js "info")
                         (ArgObject []) None Toy.fine)) = [js "GET"] /\
  callback_calls (trace (@publicMethod Toy.codec Toy.client (js "info")
                           (ArgObject []) None Toy.fine)) = [].
Proof.
  split.
  - apply (@publicMethod_headers Toy.codec Toy.client (js "info")
             (ArgObject []) None Toy.fine).
  - apply (@publicMethod_headers Toy.codec Toy.client (js "info")
             (ArgObject []) None Toy.fine).
    reflexivity.
Defined.

Lemma privateMethod_token_failure_silent_witness :
  let offline :=
    {| now := 1700000000000;
       token_reply := RequestFailed (RequestError (js "ECONNREFUSED"));
       api_reply := GotBody (js "ok") |} in
  let r := @privateMethod Toy.crypto Toy.codec Toy.client (js "getinfo")
             (ArgObject []) (Some 5%nat) offline in
  result r = ReturnedUndefined /\
  sent_urls (trace r) = [] /\
  callback_calls (trace r) = [] /\
  token_fetches (trace r) = 1%nat.
Proof.
  intros offline.
  apply (@privateMethod_token_failure_silent Toy.crypto Toy.codec Toy.client
           (js "getinfo") (ArgObject []) (Some 5%nat) offline
           (RequestError (js "ECONNREFUSED"))).
  reflexivity.
Defined.


Lemma privateMethod_http_method_witness :
  sent_methods (trace (@privateMethod Toy.crypto Toy.codec Toy.client
                         (js "trade") (ArgObject []) None Toy.fine))
  = [js "POST"] /\
  sent_methods (trace (@privateMethod Toy.crypto Toy.codec Toy.client
                         (js "cancel-order") (ArgObject []) None Toy.fine))
  = [js "GET"].
Proof.
  split.
  - apply (@privateMethod_http_method Toy.crypto Toy.codec Toy.client
             (js "trade") (ArgObject []) None Toy.fine Toy.token);
      reflexivity.
  - apply (@privateMethod_http_method Toy.crypto Toy.codec Toy.client
             (js "cancel-order") (ArgObject []) None Toy.fine Toy.token);
      [reflexivity|discriminate].
Defined.

Lemma privateMethod_reuse_nonce_witness :
  let later :=
    {| now := 1700000060000;
       token_reply := RequestBody Toy.token;
       api_reply := GotBody (js "ok") |} in
  let first := @privateMethod Toy.crypto Toy.codec Toy.client (js "getinfo")
                 (ArgObject []) None Toy.fine in
  let second := @privateMethod Toy.crypto Toy.codec Toy.client (js "getinfo")
                  (params_after first) None later in
  property (params_after second) (js "nonce") = VNum 1700000000000000.
Proof.
  intros later.
  apply (@privateMethod_reuse_nonce Toy.crypto Toy.codec Toy.client
           Toy.client (js "getinfo") (js "getinfo") [] None None
           Toy.fine later); [reflexivity|discriminate].
Defined.

Lemma privateMethod_reuse_param_witness :
  let first := @privateMethod Toy.crypto Toy.codec Toy.client
                 (js "order-info") (ArgObject [(js "param", VNum 42)])
                 None Toy.fine in
  let second := @privateMethod Toy.crypto Toy.codec Toy.client
                  (js "order-info") (params_after first) None Toy.fine in
  sent_urls (trace first) =
    [js "https://api.buzzex.io/api/v1/trading/order-info/42"] /\
  sent_urls (trace second) =
    [js "https://api.buzzex.io/api/v1/trading/order-info//42"].
Proof.
  split; [reflexivity|].
  apply (@privateMethod_reuse_param Toy.crypto Toy.codec Toy.client
           (js "order-info") [(js "param", VNum 42)] None None
           Toy.fine Toy.fine Toy.token); [discriminate|reflexivity].
Defined.

Lemma privateMethod_otp_witness :
  property
    (params_after
       (@privateMethod Toy.crypto Toy.codec
          (BuzzexClient (js "key") (js "c2VjcmV0") (OptionsString (js "123456")))
          (js "trade") (ArgObject [(js "otp", VStr (js "000000"))])
          None Toy.fine))
    (js "otp") = VStr (js "123456") /\
  property
    (params_after
       (@privateMethod Toy.crypto Toy.codec Toy.client
          (js "trade") (ArgObject [(js "otp", VStr (js "000000"))])
          None Toy.fine))
    (js "otp") = VStr (js "000000").
Proof.
  split.
  - apply (proj1
             (@privateMethod_otp Toy.crypto Toy.codec
                (BuzzexClient (js "key") (js "c2VjcmV0")
                   (OptionsString (js "123456")))
                (js "trade") [(js "otp", VStr (js "000000"))] None Toy.fine
                (js "key") (js "c2VjcmV0") (js "123456"))).
    discriminate.
  - apply (proj1 (proj2
             (@privateMethod_otp Toy.crypto Toy.codec Toy.client
                (js "trade") [(js "otp", VStr (js "000000"))] None Toy.fine
                (js "key") (js "c2VjcmV0") (js "123456")))).
    reflexivity.
Defined.

